(** * vold, fs/Vfat.cpp: check, mount and format of a FAT volume

    A shallow embedding of [android::vold::vfat] (src/fs/Vfat.cpp).

    The C++ code is a thin layer of control flow around calls into libc, the
    kernel and vold's own process helpers.  Every such call is kept as an
    uninterpreted interaction with the host: the program asks, the host
    answers with a return value and possibly a new [errno].  The functions of
    Vfat.cpp are written in a small state monad over the process state
    ([errno] and the history of calls made so far), statement by statement. *)

From Stdlib Require Import ZArith String Ascii List Bool Lia ZifyBool.
From Equations Require Import Equations.
Import ListNotations.

Local Open Scope string_scope.
Local Open Scope Z_scope.

(** ** Constants of the platform headers (Linux / bionic values) *)

Module Errno.
(* <errno.h>, asm-generic/errno-base.h and asm-generic/errno.h *)
Definition EIO : Z := 5.
Definition EROFS : Z := 30.
Definition ENODATA : Z := 61.
Definition ETIMEDOUT : Z := 110.
Definition ENOENT : Z := 2.
End Errno.
Import Errno.

Module MountFlags.
(* <sys/mount.h> / <linux/fs.h> *)
Definition MS_RDONLY : Z := 1.
Definition MS_NOSUID : Z := 2.
Definition MS_NODEV : Z := 4.
Definition MS_NOEXEC : Z := 8.
Definition MS_REMOUNT : Z := 32.
Definition MS_DIRSYNC : Z := 128.
Definition MS_NOATIME : Z := 1024.
End MountFlags.
Import MountFlags.

(* <unistd.h> *)
Definition F_OK : Z := 0.
Definition X_OK : Z := 1.

(* the octal literal 0755 *)
Definition mode_0755 : Z := 7 * 8 ^ 2 + 5 * 8 + 5.

(* Vfat.cpp:52-53 *)
Definition kMkfsPath : string := "/system/bin/newfs_msdos".
Definition kFsckPath : string := "/system/bin/fsck_msdos".

(** ** Fixed-width integers *)

(** Conversion to a signed integer of [w] bits (two's complement wrap). *)
Definition to_signed (w : Z) (x : Z) : Z :=
  (x + 2 ^ (w - 1)) mod 2 ^ w - 2 ^ (w - 1).

Definition to_int32 : Z -> Z := to_signed 32.
Definition to_int16 : Z -> Z := to_signed 16.

(** Conversion to an unsigned integer of [w] bits. *)
Definition to_unsigned (w : Z) (x : Z) : Z := x mod 2 ^ w.

(** ** printf conversions used by StringPrintf *)

Definition digit_char (d : Z) : ascii := ascii_of_nat (48 + Z.to_nat d).

(** Digits of [n] in [base], most significant first, in front of [acc]. *)
Fixpoint digits_loop (base : Z) (fuel : nat) (n : Z) (acc : string) : string :=
  match fuel with
  | O => acc
  | S fuel' =>
      let acc' := String (digit_char (n mod base)) acc in
      if n / base =? 0 then acc' else digits_loop base fuel' (n / base) acc'
  end.

(** A number below [2 ^ (1 + log2 n)] has at most [1 + log2 n] digits in any
    base from 2 up, which is the fuel given here ([fmt_unsigned_value]). *)
Definition fmt_unsigned (base n : Z) : string :=
  digits_loop base (S (Z.to_nat (Z.log2 n))) n "".

(** [%d] of an [int] *)
Definition fmt_d (n : Z) : string :=
  if n <? 0 then "-" ++ fmt_unsigned 10 (- n) else fmt_unsigned 10 n.

(** [%o] of an [int]: the argument is read as [unsigned int] *)
Definition fmt_o (n : Z) : string := fmt_unsigned 8 (to_unsigned 32 n).

(** [%lu] of an [unsigned long] *)
Definition fmt_lu (n : Z) : string := fmt_unsigned 10 (to_unsigned 64 n).

(** Reading a digit string back, for the round trip of the conversions. *)
Definition digit_value (c : ascii) : Z := Z.of_nat (nat_of_ascii c) - 48.

Fixpoint value_from (base : Z) (a : Z) (s : string) : Z :=
  match s with
  | EmptyString => a
  | String c s' => value_from base (a * base + digit_value c) s'
  end.

(** ** The host: calls, replies, process state *)

(** Modelled from the spec: [IsFilesystemSupported], [ForkExecvpTimeout] and
    [ForkExecvp] are vold's own helpers, declared in Utils.h and defined in
    Utils.cpp, which is not part of fs/Vfat.cpp.  They are kept as calls
    answered by the host.  [IsFilesystemSupported] asks whether the running
    kernel advertises a filesystem type (a pure query, spec section 4.1).
    [ForkExecvp] and [ForkExecvpTimeout] run a command to completion and
    answer with its exit status, with a negative value when the command
    could not be launched and, for the second, with the timeout sentinel
    [ETIMEDOUT] when the time budget ran out (spec sections 3 and 4.2).
    [ForkExecvpTimeout] is only ever called with the constants
    [kUntrustedFsckSleepTime] and [sFsckUntrustedContext], which are left out
    of the call. *)
Inductive Helper : Type :=
| IsFilesystemSupported (fsType : string)
| ForkExecvpTimeout (cmd : list string)
| ForkExecvp (cmd : list string).

(** The calls Vfat.cpp makes outside itself: libc, and vold's helpers. *)
Inductive Call : Type :=
| access (path : string) (mode : Z)
| time
| localtime_r (now : Z)
| mount (source target fstype : string) (flags : Z) (data : string)
| mkdir (path : string) (mode : Z)
| helper (h : Helper).

Coercion helper : Helper >-> Call.

(** The host's answer: the value returned, and the value left in [errno]
    when the call wrote it. *)
Record Reply : Type := mkReply { ret : Z; err : option Z }.

Abbreviation Event := (Call * Reply)%type (only parsing).

(** The host is any function from the calls made so far (most recent first)
    and the call being made to a reply. *)
Definition Host : Type := list Event -> Call -> Reply.

(** The state of the process: [errno], and what it has done to the host. *)
Record World : Type := mkWorld { errno : Z; history : list Event }.

(** Calls that only inspect the host. *)
Definition is_query (c : Call) : bool :=
  match c with
  | access _ _ | time | localtime_r _ => true
  | helper (IsFilesystemSupported _) => true
  | mount _ _ _ _ _ | mkdir _ _ => false
  | helper (ForkExecvpTimeout _) | helper (ForkExecvp _) => false
  end.

(** The calls of a history that may have changed the host. *)
Definition mutations (h : list Event) : list Event :=
  filter (fun e => negb (is_query (fst e))) h.

(** ** The monad *)

Definition M (A : Type) : Type := World -> A * World.

Definition pure {A} (x : A) : M A := fun w => (x, w).

Definition bind {A B} (m : M A) (k : A -> M B) : M B :=
  fun w => let (x, w') := m w in k x w'.

Declare Scope vold_scope.
Delimit Scope vold_scope with vold.
Notation "x <- m ;; k" := (bind m (fun x => k))
  (at level 61, m at next level, right associativity) : vold_scope.
Notation "m ;; k" := (bind m (fun _ => k))
  (at level 61, right associativity) : vold_scope.
Local Open Scope vold_scope.

(** [errno = e;] *)
Definition set_errno (e : Z) : M unit :=
  fun w => (tt, mkWorld e (history w)).

(** reading [errno] *)
Definition get_errno : M Z := fun w => (errno w, w).

(** Short-circuit [&&] of two tests with effects. *)
Definition andM (a b : M bool) : M bool :=
  x <- a ;; if x then b else pure false.
Infix "&&&" := andM (at level 40, left associativity) : vold_scope.

(** ** Vfat.cpp *)

Section Vfat.

Variable host : Host.

(** Making a call: the host answers from the history, the call is recorded,
    [errno] is overwritten when the reply says so. *)
Definition call (c : Call) : M Z :=
  fun w =>
    let r := host (history w) c in
    (ret r,
     mkWorld (match err r with Some e => e | None => errno w end)
             ((c, r) :: history w)).

(** The state a call leaves behind. *)
Definition after (c : Call) (w : World) : World := snd (call c w).

(** Vfat.cpp:55-58 *)
Definition IsSupported : M bool :=
  (a <- call (access kMkfsPath X_OK) ;; pure (a =? 0)) &&&
  (a <- call (access kFsckPath X_OK) ;; pure (a =? 0)) &&&
  (s <- call (IsFilesystemSupported "vfat") ;; pure (negb (s =? 0))).

(** The command of Vfat.cpp:64-69. *)
Definition fsck_cmd (source : string) : list string :=
  [kFsckPath; "-p"; "-f"; "-y"; source].

(** Vfat.cpp:72, the call of the check tool. *)
Definition fsck_call (source : string) : Call :=
  ForkExecvpTimeout (fsck_cmd source).

(** Rechecks still allowed when the loop is entered with [pass]. *)
Definition rechecks_left (pass : Z) : nat := Z.to_nat (4 - pass).

(** Vfat.cpp:63-117, the body of [do { ... } while (1)] with the value of
    [pass] and the state of the process on entry.  [continue] is the
    recursive call; it is only reached with [pass <= 3] and with [pass]
    incremented, so that [4 - pass] goes down.  The log lines are left
    out. *)
#[derive(equations=no, eliminator=no)]
Equations? Check_loop (source : string) (pass : Z) (w : World) : Z * World
  by wf (rechecks_left pass) lt :=
Check_loop source pass w :=
  let '(rc, w) := call (fsck_call source) w in
  if rc <? 0 then (set_errno EIO ;; pure (-1)) w
  else if rc =? 0 then pure 0 w
  else if rc =? 1 then pure (-1) w
  else if rc =? 2 then (set_errno ENODATA ;; pure (-1)) w
  else if rc =? 4 then
    match Z_le_gt_dec pass 3 with
    | left _ => Check_loop source (pass + 1) w
    | right _ => (set_errno EIO ;; pure (-1)) w
    end
  else if rc =? 8 then (set_errno ENODATA ;; pure (-1)) w
  else if rc =? ETIMEDOUT then (set_errno ETIMEDOUT ;; pure (-1)) w
  else (set_errno EIO ;; pure (-1)) w.
Proof. unfold rechecks_left. lia. Qed.

(** Vfat.cpp:60-62 *)
Definition Check (source : string) : M Z := Check_loop source 1.

(** Vfat.cpp:122-130.  [tm_gmtoff] is a [long]; it is narrowed to [int32_t],
    divided by 60 (C division truncates toward zero: [Z.quot]) and narrowed
    again to [int16_t]. *)
Definition currentUtcOffsetMinutes : M Z :=
  now <- call time ;;
  tm_gmtoff <- call (localtime_r now) ;;
  let utcOffsetSeconds := to_int32 tm_gmtoff in
  pure (to_int16 (utcOffsetSeconds ÷ 60)).

(** Vfat.cpp:132-199.  [flags] is an [unsigned long], far wider than the
    bits used.  The log lines are left out. *)
Definition DoMount (source target : string) (ro remount executable : bool)
    (ownerUid ownerGid permMask : Z) (createLost : bool) : M Z :=
  let flags :=
    Z.lor (Z.lor (Z.lor MS_NODEV MS_NOSUID) MS_DIRSYNC) MS_NOATIME in
  let flags := Z.lor flags (if executable then 0 else MS_NOEXEC) in
  let flags := Z.lor flags (if ro then MS_RDONLY else 0) in
  let flags := Z.lor flags (if remount then MS_REMOUNT else 0) in
  let mountData :=
    ("utf8,uid=" ++ fmt_d ownerUid ++ ",gid=" ++ fmt_d ownerGid ++
     ",fmask=" ++ fmt_o permMask ++ ",dmask=" ++ fmt_o permMask ++
     ",shortname=mixed")%string in
  timeOffsetArg <- currentUtcOffsetMinutes ;;
  let mountData :=
    (mountData ++ ",time_offset=" ++ fmt_d timeOffsetArg)%string in
  rc <- call (mount source target "vfat" flags mountData) ;;
  e <- get_errno ;;
  rc <- (if negb (rc =? 0) && (e =? EROFS)
         then call (mount source target "vfat"
                          (Z.lor flags MS_RDONLY) mountData)
         else pure rc) ;;
  (if (rc =? 0) && createLost
   then
     let lost_path := (target ++ "/LOST.DIR")%string in
     a <- call (access lost_path F_OK) ;;
     if negb (a =? 0)
     then _ <- call (mkdir lost_path mode_0755) ;; pure tt
     else pure tt
   else pure tt) ;;
  pure rc.

(** Vfat.cpp:228-239 *)
Definition mkfs_cmd (source : string) (numSectors : Z) : list string :=
  ([kMkfsPath; "-O"; "android"; "-A"] ++
   (if negb (numSectors =? 0) then ["-s"; fmt_lu numSectors] else []) ++
   [source])%list.

(** Vfat.cpp:227-257.  The log lines are left out. *)
Definition Format (source : string) (numSectors : Z) : M Z :=
  let cmd := mkfs_cmd source numSectors in
  rc <- call (ForkExecvp cmd) ;;
  if rc <? 0 then set_errno EIO ;; pure (-1)
  else if rc =? 0 then pure 0
  else set_errno EIO ;; pure (-1).

(** [Mount] (Vfat.cpp:220-225) hands [DoMount] and its arguments to
    [ForkTimeout], which runs it in a forked child under a time limit; what
    is stated below is stated of [DoMount]. *)

End Vfat.

(** ** Observing a run *)

(** The calls made between two states of the process, oldest first. *)
Definition since (w w' : World) : list Event :=
  rev (firstn (length (history w') - length (history w)) (history w')).

Definition is_mount (e : Event) : bool :=
  match fst e with mount _ _ _ _ _ => true | _ => false end.

Definition is_mkdir (e : Event) : bool :=
  match fst e with mkdir _ _ => true | _ => false end.

Definition is_access (e : Event) : bool :=
  match fst e with access _ _ => true | _ => false end.

(** The option strings handed to [mount], in order. *)
Definition mount_data (l : list Event) : list string :=
  flat_map (fun e => match fst e with
                     | mount _ _ _ _ data => [data]
                     | _ => []
                     end) l.

(** [flag] is set in the bitset [flags]. *)
Definition has_flag (flags flag : Z) : bool := Z.land flags flag =? flag.

(** ** Hosts used in the examples *)

(** A host whose tools always exit with [status] and leave [errno] alone. *)
Definition tool_exits (status : Z) : Host := fun _ _ => mkReply status None.

(** The process before it has called anything, with [errno] clear. *)
Definition boot : World := mkWorld 0 [].

(** A host whose local time is [gmtoff] seconds east of UTC, whose kernel
    knows every filesystem type, and on which every other call succeeds
    with 0. *)
Definition host_at_offset (gmtoff : Z) : Host :=
  fun _ c =>
    match c with
    | localtime_r _ => mkReply gmtoff None
    | helper (IsFilesystemSupported _) => mkReply 1 None
    | _ => mkReply 0 None
    end.

(** The time zone UTC-5, 300 minutes behind UTC. *)
Definition utc_minus_5 : Host := host_at_offset (-18000).

(** A host whose medium is write-protected: [mount] fails with [EROFS]
    unless [MS_RDONLY] is asked for, nothing exists under the mount point,
    and [mkdir] fails with [EROFS]. *)
Definition write_protected : Host :=
  fun _ c =>
    match c with
    | mount _ _ _ flags _ =>
        if has_flag flags MS_RDONLY then mkReply 0 None
        else mkReply (-1) (Some EROFS)
    | access _ _ => mkReply (-1) (Some ENOENT)
    | mkdir _ _ => mkReply (-1) (Some EROFS)
    | _ => mkReply 0 None
    end.

(** A host whose check tool finds the filesystem dirty until [clean] calls
    have been made, and answers [status] from then on. *)
Definition dirty_then (clean : nat) (status : Z) : Host :=
  fun h _ =>
    if (length h <? clean)%nat then mkReply 4 None else mkReply status None.

(** A host whose local time depends on the instant asked about: the clock
    reads 1720000000, an instant of summer time at which local time is 240
    minutes behind UTC, while at every other instant it is 300 minutes
    behind. *)
Definition summer_time : Host :=
  fun _ c =>
    match c with
    | time => mkReply 1720000000 None
    | localtime_r now =>
        if now =? 1720000000 then mkReply (-14400) None
        else mkReply (-18000) None
    | _ => mkReply 0 None
    end.

(** A host whose medium cannot be read: every [mount] fails with [EIO]. *)
Definition faulty_medium : Host :=
  fun _ c =>
    match c with
    | mount _ _ _ _ _ => mkReply (-1) (Some EIO)
    | _ => mkReply 0 None
    end.

(** ** Further observations *)

(** One of the characters 0 to 9. *)
Definition is_digit (c : ascii) : bool :=
  (48 <=? nat_of_ascii c)%nat && (nat_of_ascii c <=? 57)%nat.

(** A string of such characters only. *)
Fixpoint all_digits (s : string) : bool :=
  match s with
  | EmptyString => true
  | String c s' => is_digit c && all_digits s'
  end.

(** The flags handed to [mount], in order. *)
Definition mount_flags (l : list Event) : list Z :=
  flat_map (fun e => match fst e with
                     | mount _ _ _ flags _ => [flags]
                     | _ => []
                     end) l.

(** The seven flags [DoMount] names (Vfat.cpp:140-144, 181). *)
Definition policy_flags : Z :=
  Z.lor MS_NODEV (Z.lor MS_NOSUID (Z.lor MS_DIRSYNC (Z.lor MS_NOATIME
    (Z.lor MS_NOEXEC (Z.lor MS_RDONLY MS_REMOUNT))))).

(** ** The arguments of a forked mount *)

(** Vfat.cpp:201-211.  The two references are modelled by the strings. *)
Module MountArgs.
Record mount_args : Type := mk_mount_args {
  source : string;
  target : string;
  ro : bool;
  remount : bool;
  executable : bool;
  ownerUid : Z;
  ownerGid : Z;
  permMask : Z;
  createLost : bool
}.
End MountArgs.

(** Vfat.cpp:213-218 *)
Definition DoMountWrapper (host : Host) (m_args : MountArgs.mount_args) : M Z :=
  DoMount host (MountArgs.source m_args) (MountArgs.target m_args)
          (MountArgs.ro m_args) (MountArgs.remount m_args)
          (MountArgs.executable m_args)
          (MountArgs.ownerUid m_args) (MountArgs.ownerGid m_args)
          (MountArgs.permMask m_args) (MountArgs.createLost m_args).

(** [Mount] (Vfat.cpp:220-225) packs its arguments into a [mount_args] and
    hands [DoMountWrapper] to [ForkTimeout] of Utils.cpp. *)

(** * Properties *)

(** ** The printf conversions print the number they are given *)

Lemma digit_value_char (d : Z) :
  0 <= d < 10 -> digit_value (digit_char d) = d.
Proof.
  intros Hd. unfold digit_value, digit_char.
  rewrite nat_ascii_embedding by lia. lia.
Qed.

Lemma digits_loop_value (base : Z) (Hb : 2 <= base <= 10) :
  forall (fuel : nat) (n : Z) (acc : string),
    0 <= n < 2 ^ Z.of_nat fuel ->
    exists k : Z, 0 <= k /\ forall a : Z,
      value_from base a (digits_loop base fuel n acc)
      = value_from base (a * base ^ k + n) acc.
Proof.
  induction fuel as [|fuel IH]; intros n acc Hn.
  - exists 0. split; [lia|]. intros a. simpl in *.
    replace n with 0 by lia. f_equal. lia.
  - simpl digits_loop.
    assert (Hmod : 0 <= n mod base < base) by (apply Z.mod_pos_bound; lia).
    assert (Hdiv : n = base * (n / base) + n mod base)
      by (apply Z.div_mod; lia).
    destruct (Z.eqb_spec (n / base) 0) as [Hz|Hnz].
    + exists 1. split; [lia|]. intros a. simpl.
      rewrite digit_value_char by lia. f_equal. lia.
    + assert (Hq : 0 <= n / base < 2 ^ Z.of_nat fuel).
      { split; [apply Z.div_pos; lia|].
        apply Z.div_lt_upper_bound; [lia|].
        rewrite Nat2Z.inj_succ, Z.pow_succ_r in Hn by lia.
        assert (0 < 2 ^ Z.of_nat fuel) by (apply Z.pow_pos_nonneg; lia).
        nia. }
      destruct (IH (n / base) (String (digit_char (n mod base)) acc) Hq)
        as (k & Hk & Hval).
      exists (k + 1). split; [lia|]. intros a.
      rewrite Hval. simpl.
      rewrite digit_value_char by lia. f_equal.
      rewrite Z.pow_add_r, Z.pow_1_r by lia. lia.
Qed.

Lemma fmt_unsigned_value (base n : Z) :
  2 <= base <= 10 -> 0 <= n -> value_from base 0 (fmt_unsigned base n) = n.
Proof.
  intros Hb Hn. unfold fmt_unsigned.
  assert (Hfuel : 0 <= n < 2 ^ Z.of_nat (S (Z.to_nat (Z.log2 n)))).
  { split; [lia|].
    rewrite Nat2Z.inj_succ, Z2Nat.id by apply Z.log2_nonneg.
    destruct (Z.eq_dec n 0) as [->|Hn0]; [reflexivity|].
    apply Z.log2_spec. lia. }
  destruct (digits_loop_value base Hb _ n "" Hfuel) as (k & _ & Hval).
  rewrite Hval. simpl. lia.
Qed.

(** The conversions write no leading zero: the first digit of a positive
    number is not 0. *)
Lemma digits_loop_leading (base : Z) (Hb : 2 <= base <= 10) :
  forall (fuel : nat) (n : Z) (acc : string),
    0 < n < 2 ^ Z.of_nat fuel ->
    exists (d : Z) (s : string),
      digits_loop base fuel n acc = String (digit_char d) s /\ 0 < d < base.
Proof.
  induction fuel as [|fuel IH]; intros n acc Hn.
  - simpl in Hn. lia.
  - simpl digits_loop.
    assert (Hmod : 0 <= n mod base < base) by (apply Z.mod_pos_bound; lia).
    assert (Hdiv : n = base * (n / base) + n mod base)
      by (apply Z.div_mod; lia).
    destruct (Z.eqb_spec (n / base) 0) as [Hz|Hnz].
    + exists (n mod base), acc. split; [reflexivity|]. lia.
    + apply IH. split; [pose proof (Z.div_pos n base); lia|].
      apply Z.div_lt_upper_bound; [lia|].
      rewrite Nat2Z.inj_succ, Z.pow_succ_r in Hn by lia.
      assert (0 < 2 ^ Z.of_nat fuel) by (apply Z.pow_pos_nonneg; lia).
      nia.
Qed.

Lemma fmt_unsigned_leading (base n : Z) :
  2 <= base <= 10 -> 0 < n ->
  exists (d : Z) (s : string),
    fmt_unsigned base n = String (digit_char d) s /\ 0 < d < base.
Proof.
  intros Hb Hn. unfold fmt_unsigned.
  apply digits_loop_leading; [exact Hb|].
  split; [lia|].
  rewrite Nat2Z.inj_succ, Z2Nat.id by apply Z.log2_nonneg.
  apply Z.log2_spec. lia.
Qed.

Example fmt_d_negative : fmt_d (-300) = "-300".
Proof. reflexivity. Qed.

Example fmt_d_zero : fmt_d 0 = "0".
Proof. reflexivity. Qed.

Example fmt_o_0007 : fmt_o 7 = "7".
Proof. reflexivity. Qed.

Example fmt_o_0755 : fmt_o mode_0755 = "755".
Proof. reflexivity. Qed.

Example fmt_o_minus_1 : fmt_o (-1) = "37777777777".
Proof. reflexivity. Qed.

Example fmt_lu_2048 : fmt_lu 2048 = "2048".
Proof. reflexivity. Qed.

(** ** Reading the calls of a run *)

Lemma since_app (w w' : World) (new : list Event) :
  history w' = (new ++ history w)%list -> since w w' = rev new.
Proof.
  intros H. unfold since. rewrite H, length_app.
  replace (length new + length (history w) - length (history w))%nat
    with (length new + 0)%nat by lia.
  rewrite firstn_app_2. simpl. rewrite app_nil_r. reflexivity.
Qed.

Lemma call_eq (host : Host) (c : Call) (w : World) :
  call host c w = (ret (host (history w) c), after host c w).
Proof. reflexivity. Qed.

Lemma errno_after (host : Host) (c : Call) (w : World) :
  errno (after host c w)
  = match err (host (history w) c) with Some e => e | None => errno w end.
Proof. reflexivity. Qed.

(** Runs the monad up to the next test of the code. *)
Ltac exec :=
  repeat first
    [ rewrite call_eq
    | progress cbv beta iota zeta
    | progress unfold bind, pure, get_errno, set_errno, andM ].

(** The events that lead from the state [w0] to the state [w'], most recent
    first. *)
Ltac events_to w0 w' :=
  lazymatch w' with
  | w0 => constr:(@nil Event)
  | after ?h ?c ?v =>
      let r := events_to w0 v in constr:((c, h (history v) c) :: r)
  | mkWorld _ (history ?v) => events_to w0 v
  | _ => let b := eval unfold w' in w' in events_to w0 b
  end.

(** Rewrites [since w w'] to the list of events of [w'] above [w]. *)
Ltac read_since :=
  cbn [fst snd];
  match goal with
  | |- context [since ?w ?w'] =>
      let new := events_to w w' in
      rewrite (since_app w w' new) by reflexivity;
      cbn [rev app]
  end.

(** ** The integrity checker *)

Section CheckFacts.

Variable host : Host.
Variable source : string.

(** One turn of the loop: the unfolding of the well-founded recursion.  The
    body of the loop uses its recursive call at one place only, so that it
    does not depend on more of the function than its values. *)
Transparent Check_loop.

Lemma Check_loop_step (pass : Z) (w : World) :
  let rc := ret (host (history w) (fsck_call source)) in
  let w1 := after host (fsck_call source) w in
  Check_loop host source pass w =
    if rc <? 0 then (-1, mkWorld EIO (history w1))
    else if rc =? 0 then (0, w1)
    else if rc =? 1 then (-1, w1)
    else if rc =? 2 then (-1, mkWorld ENODATA (history w1))
    else if rc =? 4 then
      if pass <=? 3 then Check_loop host source (pass + 1) w1
      else (-1, mkWorld EIO (history w1))
    else if rc =? 8 then (-1, mkWorld ENODATA (history w1))
    else if rc =? ETIMEDOUT then (-1, mkWorld ETIMEDOUT (history w1))
    else (-1, mkWorld EIO (history w1)).
Proof.
  intros rc w1. unfold Check_loop at 1. rewrite FixWf_unfold.
  - unfold Check_loop_functional. cbn [pr1 pr2].
    change (call host (fsck_call source) w) with (rc, w1). cbv iota.
    repeat match goal with
           | |- context [if ?b then _ else _] => destruct b eqn:?
           end;
      try reflexivity; try lia;
      destruct (Z_le_gt_dec pass 3); try reflexivity; lia.
  - intros [s [p v]] f g Hfg. unfold Check_loop_functional, call.
    cbn [pr1 pr2] in *. cbv beta iota zeta.
    repeat match goal with
           | |- context [if ?b then _ else _] =>
               lazymatch type of b with bool => destruct b end
           end;
      try reflexivity.
    destruct (Z_le_gt_dec p 3); [apply Hfg|reflexivity].
Qed.

Opaque Check_loop.

Lemma history_after (c : Call) (w : World) :
  history (after host c w) = (c, host (history w) c) :: history w.
Proof. reflexivity. Qed.

(** How many times the tool runs: at least once, at most once more than the
    rechecks left; exactly that often, ending in [EIO], when the filesystem
    stays dirty. *)
Lemma Check_loop_attempts (n : nat) :
  forall (pass : Z) (w : World),
    rechecks_left pass = n ->
    exists new : list Event,
      history (snd (Check_loop host source pass w)) = (new ++ history w)%list /\
      Forall (fun e => fst e = fsck_call source) new /\
      (1 <= length new <= n + 1)%nat /\
      ((forall h, ret (host h (fsck_call source)) = 4) ->
       length new = (n + 1)%nat /\
       fst (Check_loop host source pass w) = -1 /\
       errno (snd (Check_loop host source pass w)) = EIO).
Proof.
  induction n as [|n IH]; intros pass w Hn; rewrite Check_loop_step;
    set (c := fsck_call source); set (r := host (history w) c);
    (assert (Hone : exists new : list Event,
               (c, r) :: history w = (new ++ history w)%list /\
               Forall (fun e => fst e = c) new /\
               (1 <= length new <= 1)%nat /\ length new = 1%nat)
      by (exists [(c, r)]; repeat split; simpl; auto));
    destruct Hone as (one & Hh & Hall & Hlen & Hlen1).
  all: repeat match goal with
         | |- context [if ?b then _ else _] => destruct b eqn:?
         end.
  all: try solve
    [ exists one; simpl; rewrite ?history_after; fold c r;
      split; [assumption|]; split; [assumption|]; split; [lia|];
      intros Hd; specialize (Hd (history w)); fold c r in Hd; lia ].
  - unfold rechecks_left in Hn. lia.
  - destruct (IH (pass + 1) (after host c w)) as (new & Hnew & Hf & Hl & Hd).
    { unfold rechecks_left in *. lia. }
    exists (new ++ one)%list. rewrite Hnew, history_after. fold r.
    rewrite Hh, app_assoc. split; [reflexivity|].
    split; [apply Forall_app; auto|].
    rewrite length_app. split; [lia|].
    intros Hall4. destruct (Hd Hall4) as (H1 & H2 & H3).
    repeat split; auto. lia.
  - exfalso. unfold rechecks_left in Hn. lia.
Qed.

End CheckFacts.

(** What one attempt with a final status leaves behind: the reading of the
    switch of Vfat.cpp:79-116 for every status but 4. *)
Lemma Check_final_status (host : Host) (source : string) (w : World) :
  let rc := ret (host (history w) (fsck_call source)) in
  let w1 := after host (fsck_call source) w in
  rc <> 4 ->
  Check host source w =
    if rc =? 0 then (0, w1)
    else if rc =? 1 then (-1, w1)
    else if (rc =? 2) || (rc =? 8) then (-1, mkWorld ENODATA (history w1))
    else if rc =? ETIMEDOUT then (-1, mkWorld ETIMEDOUT (history w1))
    else (-1, mkWorld EIO (history w1)).
Proof.
  intros rc w1 H4. unfold Check. rewrite Check_loop_step. fold rc w1.
  unfold ETIMEDOUT.
  repeat match goal with
         | |- context [if ?b then _ else _] => destruct b eqn:?
         end;
    try reflexivity; simpl in *; try discriminate; lia.
Qed.

(** C1 (the code against the claim): when the first attempt of the check
    tool ends with status 1, [Check] returns the failure result -1 and
    leaves the last-error indicator as the run of the tool left it, without
    writing it; so with [errno] at 0 beforehand it is still 0 afterwards,
    not the generic I/O error that the claim and the table of spec 4.2 give
    for status 1. *)
Theorem Check_exit_status_1_leaves_errno :
  (forall (host : Host) (source : string) (w : World),
     ret (host (history w) (fsck_call source)) = 1 ->
     Check host source w = (-1, after host (fsck_call source) w)) /\
  (let '(rc, w') := Check (tool_exits 1) "/dev/block/vold/public:8,1" boot in
   rc = -1 /\ errno w' = 0 /\ errno w' <> EIO /\
   since boot w' =
     [(fsck_call "/dev/block/vold/public:8,1", mkReply 1 None)]).
Proof.
  split.
  - intros host source w H1. rewrite Check_final_status by lia.
    rewrite H1. reflexivity.
  - rewrite Check_final_status by (simpl; lia).
    simpl. repeat split. unfold EIO. lia.
Qed.

(** C3: [Check] runs the check tool at least once and at most 4 times,
    whatever the tool answers; when every attempt answers the dirty status 4
    it stops after the 4th attempt and fails with the generic I/O error;
    when the first attempt answers 0 it returns success after exactly one
    run of the tool. *)
Theorem Check_attempts_bounded (host : Host) (source : string) (w : World) :
  let '(rc, w') := Check host source w in
  let runs := since w w' in
  (Forall (fun e => fst e = fsck_call source) runs /\
   (1 <= length runs <= 4)%nat) /\
  ((forall h, ret (host h (fsck_call source)) = 4) ->
   length runs = 4%nat /\ rc = -1 /\ errno w' = EIO) /\
  (ret (host (history w) (fsck_call source)) = 0 ->
   length runs = 1%nat /\ rc = 0).
Proof.
  destruct (Check host source w) as [rc w'] eqn:E. cbv zeta.
  destruct (Check_loop_attempts host source 3 1 w eq_refl)
    as (new & Hh & Hall & Hlen & Hdirty).
  fold (Check host source) in Hh, Hdirty. rewrite E in Hh, Hdirty.
  simpl in Hh, Hdirty.
  rewrite (since_app w w' new Hh), length_rev.
  split; [|split].
  - split; [|lia]. apply Forall_rev. exact Hall.
  - intros Hd. apply Hdirty. exact Hd.
  - intros H0. rewrite Check_final_status in E by lia.
    rewrite H0 in E. simpl in E. injection E as <- <-.
    rewrite history_after in Hh.
    assert (Hl : length ((fsck_call source,
                          host (history w) (fsck_call source)) :: history w)
                 = length (new ++ history w)%list)
      by (rewrite Hh; reflexivity).
    rewrite length_app in Hl. simpl in Hl. split; [lia|reflexivity].
Qed.

Lemma Check_attempts_bounded_witness :
  (let '(rc, w') := Check (tool_exits 4) "/dev/block/sda1" boot in
   length (since boot w') = 4%nat /\ rc = -1 /\ errno w' = EIO) /\
  (let '(rc, w') := Check (tool_exits 0) "/dev/block/sda1" boot in
   length (since boot w') = 1%nat /\ rc = 0).
Proof.
  split.
  - pose proof (Check_attempts_bounded (tool_exits 4) "/dev/block/sda1" boot)
      as H.
    destruct (Check (tool_exits 4) "/dev/block/sda1" boot) as [rc w'].
    destruct H as (_ & Hdirty & _).
    apply Hdirty. intros h. reflexivity.
  - pose proof (Check_attempts_bounded (tool_exits 0) "/dev/block/sda1" boot)
      as H.
    destruct (Check (tool_exits 0) "/dev/block/sda1" boot) as [rc w'].
    destruct H as (_ & _ & Hclean).
    apply Hclean. reflexivity.
Defined.

(** C9: when the value [Check] gets back from running the tool is the number
    [ETIMEDOUT] (110), which is also what a tool that itself exits with
    status 110 produces, [Check] reports the timeout: it fails with [errno]
    set to [ETIMEDOUT], not to the generic I/O error of an unknown exit
    code, and does not run the tool again. *)
Theorem Check_exit_status_ETIMEDOUT (host : Host) (source : string)
    (w : World) :
  ret (host (history w) (fsck_call source)) = 110 ->
  let '(rc, w') := Check host source w in
  rc = -1 /\ errno w' = ETIMEDOUT /\ errno w' <> EIO /\
  length (since w w') = 1%nat.
Proof.
  intros H. rewrite Check_final_status by lia. rewrite H. simpl.
  rewrite (since_app w _
             [(fsck_call source, host (history w) (fsck_call source))])
    by reflexivity.
  repeat split. unfold ETIMEDOUT, EIO. lia.
Qed.

Lemma Check_exit_status_ETIMEDOUT_witness :
  let '(rc, w') := Check (tool_exits 110) "/dev/block/sda1" boot in
  rc = -1 /\ errno w' = ETIMEDOUT /\ errno w' <> EIO /\
  length (since boot w') = 1%nat.
Proof.
  apply (Check_exit_status_ETIMEDOUT (tool_exits 110) "/dev/block/sda1" boot).
  reflexivity.
Defined.

(** ** The mount orchestrator *)

(** A run of [DoMount], call by call: the time, the local time, the mount,
    the second mount when the first failed with [errno] at [EROFS], then the
    probe for LOST.DIR when the volume is mounted and [createLost] is set,
    and its creation when the probe failed.  [e1] is [errno] after the first
    mount. *)
Lemma DoMount_run (host : Host) (source target : string)
    (ro remount executable : bool) (ownerUid ownerGid permMask : Z)
    (createLost : bool) (w : World) :
  exists (rt rl r1 r2 ra rm : Reply) (e1 : Z),
    let flags :=
      Z.lor (Z.lor (Z.lor (Z.lor (Z.lor (Z.lor MS_NODEV MS_NOSUID) MS_DIRSYNC)
                                 MS_NOATIME)
                          (if executable then 0 else MS_NOEXEC))
                   (if ro then MS_RDONLY else 0))
            (if remount then MS_REMOUNT else 0) in
    let data :=
      (("utf8,uid=" ++ fmt_d ownerUid ++ ",gid=" ++ fmt_d ownerGid ++
        ",fmask=" ++ fmt_o permMask ++ ",dmask=" ++ fmt_o permMask ++
        ",shortname=mixed") ++
       ",time_offset=" ++ fmt_d (to_int16 (to_int32 (ret rl) ÷ 60)))%string in
    let lost_path := (target ++ "/LOST.DIR")%string in
    let retry := negb (ret r1 =? 0) && (e1 =? EROFS) in
    let rc := if retry then ret r2 else ret r1 in
    let probe := (rc =? 0) && createLost in
    let create := probe && negb (ret ra =? 0) in
    fst (currentUtcOffsetMinutes host w)
      = to_int16 (to_int32 (ret rl) ÷ 60) /\
    (forall e, err r1 = Some e -> e1 = e) /\
    fst (DoMount host source target ro remount executable
                 ownerUid ownerGid permMask createLost w) = rc /\
    since w (snd (DoMount host source target ro remount executable
                          ownerUid ownerGid permMask createLost w))
    = ([(time, rt); (localtime_r (ret rt), rl);
        (mount source target "vfat" flags data, r1)] ++
       (if retry
        then [(mount source target "vfat" (Z.lor flags MS_RDONLY) data, r2)]
        else []) ++
       (if probe then [(access lost_path F_OK, ra)] else []) ++
       (if create then [(mkdir lost_path mode_0755, rm)] else []))%list.
Proof.
  unfold DoMount, currentUtcOffsetMinutes. exec.
  set (rt := host (history w) time).
  set (w1 := after host time w).
  set (rl := host (history w1) (localtime_r (ret rt))).
  set (w2 := after host (localtime_r (ret rt)) w1).
  set (flags := Z.lor (Z.lor _ _) (if remount then MS_REMOUNT else 0)).
  set (data := ((_ ++ _) ++ ",time_offset=" ++ _)%string).
  set (c1 := mount source target "vfat" flags data).
  set (r1 := host (history w2) c1).
  set (w3 := after host c1 w2).
  set (c2 := mount source target "vfat" (Z.lor flags MS_RDONLY) data).
  set (ca := access (target ++ "/LOST.DIR") F_OK).
  set (cm := mkdir (target ++ "/LOST.DIR") mode_0755).
  assert (He1 : forall e, err r1 = Some e -> errno w3 = e).
  { intros e He. unfold w3. rewrite errno_after. fold r1. rewrite He.
    reflexivity. }
  destruct (negb (ret r1 =? 0) && (errno w3 =? EROFS)) eqn:Hretry; exec.
  - set (r2 := host (history w3) c2). set (w4 := after host c2 w3).
    destruct ((ret r2 =? 0) && createLost) eqn:Hprobe; exec.
    + set (ra := host (history w4) ca). set (w5 := after host ca w4).
      destruct (negb (ret ra =? 0)) eqn:Hcreate; exec.
      * exists rt, rl, r1, r2, ra, (host (history w5) cm), (errno w3).
        cbv zeta. rewrite Hretry, Hprobe, Hcreate.
        split; [reflexivity|]. split; [exact He1|]. split; [reflexivity|].
        read_since. reflexivity.
      * exists rt, rl, r1, r2, ra, ra, (errno w3).
        cbv zeta. rewrite Hretry, Hprobe, Hcreate.
        split; [reflexivity|]. split; [exact He1|]. split; [reflexivity|].
        read_since. reflexivity.
    + exists rt, rl, r1, r2, r2, r2, (errno w3).
      cbv zeta. rewrite Hretry, Hprobe.
      split; [reflexivity|]. split; [exact He1|]. split; [reflexivity|].
      read_since. reflexivity.
  - destruct ((ret r1 =? 0) && createLost) eqn:Hprobe; exec.
    + set (ra := host (history w3) ca). set (w5 := after host ca w3).
      destruct (negb (ret ra =? 0)) eqn:Hcreate; exec.
      * exists rt, rl, r1, r1, ra, (host (history w5) cm), (errno w3).
        cbv zeta. rewrite Hretry, Hprobe, Hcreate.
        split; [reflexivity|]. split; [exact He1|]. split; [reflexivity|].
        read_since. reflexivity.
      * exists rt, rl, r1, r1, ra, ra, (errno w3).
        cbv zeta. rewrite Hretry, Hprobe, Hcreate.
        split; [reflexivity|]. split; [exact He1|]. split; [reflexivity|].
        read_since. reflexivity.
    + exists rt, rl, r1, r1, r1, r1, (errno w3).
      cbv zeta. rewrite Hretry, Hprobe.
      split; [reflexivity|]. split; [exact He1|]. split; [reflexivity|].
      read_since. reflexivity.
Qed.

(** Splits the run of [DoMount] in the goal into its replies and the facts
    of [DoMount_run]. *)
Ltac split_run :=
  match goal with
  | |- context [DoMount ?h ?s ?t ?ro ?rem ?exe ?u ?g ?m ?l ?w] =>
      let rt := fresh "rt" in let rl := fresh "rl" in
      let r1 := fresh "r1" in let r2 := fresh "r2" in
      let ra := fresh "ra" in let rm := fresh "rm" in
      let e1 := fresh "e1" in
      let Hoff := fresh "Hoff" in
      let He1 := fresh "He1" in let Hrc := fresh "Hrc" in
      let Hs := fresh "Hs" in
      destruct (DoMount_run h s t ro rem exe u g m l w)
        as (rt & rl & r1 & r2 & ra & rm & e1 & Hoff & He1 & Hrc & Hs);
      destruct (DoMount h s t ro rem exe u g m l w) as [rc w'];
      cbn [fst snd] in Hrc, Hs; cbv zeta
  end.

(** C6: the flags of the mount always hold no-device-nodes, no-setuid,
    synchronous directory updates and no-access-time updates; they hold
    no-execute exactly when [executable] is false, read-only exactly when
    [ro] is true, and remount exactly when [remount] is true.  These are
    the flags of the first attempt, before any read-only fallback. *)
Theorem DoMount_mount_flags (host : Host) (source target : string)
    (ro remount executable : bool) (ownerUid ownerGid permMask : Z)
    (createLost : bool) (w : World) :
  let '(rc, w') :=
    DoMount host source target ro remount executable
            ownerUid ownerGid permMask createLost w in
  exists (flags : Z) (data : string) (r : Reply) (rest : list Event),
    filter is_mount (since w w')
      = (mount source target "vfat" flags data, r) :: rest /\
    has_flag flags MS_NODEV = true /\
    has_flag flags MS_NOSUID = true /\
    has_flag flags MS_DIRSYNC = true /\
    has_flag flags MS_NOATIME = true /\
    has_flag flags MS_NOEXEC = negb executable /\
    has_flag flags MS_RDONLY = ro /\
    has_flag flags MS_REMOUNT = remount.
Proof.
  split_run. rewrite Hs. cbn [app filter is_mount fst].
  do 4 eexists. split; [reflexivity|].
  destruct executable, ro, remount; repeat split.
Qed.

Lemma string_app_assoc (a b c : string) :
  ((a ++ b) ++ c)%string = (a ++ (b ++ c))%string.
Proof.
  induction a as [|x a IH]; simpl; [reflexivity|]. rewrite IH. reflexivity.
Qed.

(** C2 (as amended): every mount of [DoMount] is handed the option string
    utf8,uid=<uid>,gid=<gid>,fmask=<mask>,dmask=<mask>,shortname=mixed,
    time_offset=<minutes>, the two masks being the one [permMask] printed by
    the octal conversion, which writes no leading zero, and the minutes the
    value of [currentUtcOffsetMinutes]; for uid 1000, gid 1000, mask 0007
    and a UTC offset of -300 minutes the string is
    utf8,uid=1000,gid=1000,fmask=7,dmask=7,shortname=mixed,time_offset=-300. *)
Theorem DoMount_option_string :
  (forall (host : Host) (source target : string)
          (ro remount executable : bool) (ownerUid ownerGid permMask : Z)
          (createLost : bool) (w : World),
     let '(minutes, _) := currentUtcOffsetMinutes host w in
     let '(rc, w') :=
       DoMount host source target ro remount executable
               ownerUid ownerGid permMask createLost w in
     let expected :=
       ("utf8,uid=" ++ fmt_d ownerUid ++ ",gid=" ++ fmt_d ownerGid ++
        ",fmask=" ++ fmt_o permMask ++ ",dmask=" ++ fmt_o permMask ++
        ",shortname=mixed,time_offset=" ++ fmt_d minutes)%string in
     mount_data (since w w') <> [] /\
     Forall (eq expected) (mount_data (since w w'))) /\
  (let '(rc, w') :=
     DoMount utc_minus_5 "/dev/block/vold/public:8,1" "/mnt/media_rw/1234-ABCD"
             false false false 1000 1000 7 true boot in
   mount_data (since boot w')
   = ["utf8,uid=1000,gid=1000,fmask=7,dmask=7,shortname=mixed,time_offset=-300"]).
Proof.
  split; [|reflexivity].
  intros. split_run.
  destruct (currentUtcOffsetMinutes host w) as [minutes w0].
  cbn [fst] in Hoff. subst minutes. rewrite Hs.
  assert (Hflat :
    (("utf8,uid=" ++ fmt_d ownerUid ++ ",gid=" ++ fmt_d ownerGid ++
      ",fmask=" ++ fmt_o permMask ++ ",dmask=" ++ fmt_o permMask ++
      ",shortname=mixed") ++
     ",time_offset=" ++ fmt_d (to_int16 (to_int32 (ret rl) ÷ 60)))%string
    = ("utf8,uid=" ++ fmt_d ownerUid ++ ",gid=" ++ fmt_d ownerGid ++
       ",fmask=" ++ fmt_o permMask ++ ",dmask=" ++ fmt_o permMask ++
       ",shortname=mixed,time_offset=" ++
       fmt_d (to_int16 (to_int32 (ret rl) ÷ 60)))%string).
  { rewrite !string_app_assoc. reflexivity. }
  rewrite Hflat.
  destruct (negb _ && _); destruct (_ && createLost); cbn [andb];
    try destruct (negb (ret ra =? 0));
    cbn [app flat_map mount_data fst];
    (split; [discriminate|repeat constructor]).
Qed.

(** C2 as stated fails: with uid 1000, gid 1000, mask 0007 and a UTC offset
    of -300 minutes the option string is not the one with fmask=07 and
    dmask=07. *)
Lemma DoMount_option_string_leading_zero :
  let '(rc, w') :=
    DoMount utc_minus_5 "/dev/block/vold/public:8,1" "/mnt/media_rw/1234-ABCD"
            false false false 1000 1000 7 true boot in
  mount_data (since boot w')
  <> ["utf8,uid=1000,gid=1000,fmask=07,dmask=07,shortname=mixed,time_offset=-300"].
Proof.
  vm_compute. discriminate.
Qed.

(** C4: when the first mount fails and leaves [errno] at [EROFS], [DoMount]
    mounts once more, with [MS_RDONLY] added to the same flags and the same
    option string, and returns what that second mount returns, so success
    when it succeeds; when the first mount fails with any other [errno], or
    succeeds, there is no second mount and its result is returned. *)
Theorem DoMount_read_only_retry (host : Host) (source target : string)
    (ro remount executable : bool) (ownerUid ownerGid permMask : Z)
    (createLost : bool) (w : World) :
  let '(rc, w') :=
    DoMount host source target ro remount executable
            ownerUid ownerGid permMask createLost w in
  exists (flags : Z) (data : string) (r1 : Reply) (rest : list Event),
    filter is_mount (since w w')
      = (mount source target "vfat" flags data, r1) :: rest /\
    (ret r1 <> 0 -> err r1 = Some EROFS ->
     exists r2 : Reply,
       rest = [(mount source target "vfat" (Z.lor flags MS_RDONLY) data, r2)] /\
       has_flag (Z.lor flags MS_RDONLY) MS_RDONLY = true /\
       rc = ret r2) /\
    (ret r1 <> 0 -> forall e, err r1 = Some e -> e <> EROFS ->
     rest = [] /\ rc = ret r1) /\
    (ret r1 = 0 -> rest = [] /\ rc = 0).
Proof.
  split_run. rewrite Hs. clear Hs.
  set (flags := Z.lor (Z.lor _ _) (if remount then MS_REMOUNT else 0)) in *.
  assert (Hro : has_flag (Z.lor flags MS_RDONLY) MS_RDONLY = true)
    by (destruct executable, ro, remount; reflexivity).
  destruct (negb (ret r1 =? 0) && (e1 =? EROFS)) eqn:Hretry;
    destruct (_ && createLost); cbn [andb];
    try destruct (negb (ret ra =? 0));
    cbn [app filter is_mount fst];
    (do 4 eexists; split; [reflexivity|]; split; [|split]).
  all: try (intros Hfail Herr; apply He1 in Herr; subst e1).
  all: try (intros Hfail e Herr Hne; apply He1 in Herr; subst e1).
  all: try (intros Hok).
  all: try (exfalso; unfold EROFS in *; lia).
  all: try (exists r2; repeat split; assumption).
  all: split; [reflexivity|]; lia.
Qed.

Lemma DoMount_read_only_retry_witness :
  let '(rc, w') :=
    DoMount write_protected "/dev/block/vold/public:8,1"
            "/mnt/media_rw/1234-ABCD" false false false 1000 1000 7 true
            boot in
  rc = 0 /\ length (filter is_mount (since boot w')) = 2%nat.
Proof.
  pose proof (DoMount_read_only_retry write_protected
                "/dev/block/vold/public:8,1" "/mnt/media_rw/1234-ABCD"
                false false false 1000 1000 7 true boot) as H.
  destruct (DoMount write_protected _ _ false false false 1000 1000 7 true boot)
    as [rc w'] eqn:E.
  vm_compute in E. injection E as <- <-.
  destruct H as (flags & data & r1 & rest & Hm & Hretry & _).
  vm_compute in Hm. injection Hm as <- <- <- <-.
  destruct Hretry as (r2 & Hrest & _ & Hrc);
    [vm_compute; discriminate | reflexivity |].
  split; [|reflexivity].
  injection Hrest as <-. exact Hrc.
Defined.

(** C5: [DoMount] looks for LOST.DIR under the target exactly when the mount
    succeeded and [createLost] is set, and calls [mkdir] on it, with mode
    0755, exactly when moreover the look-up failed; a LOST.DIR that is
    there is not touched; and whenever the [mkdir] was made, whatever it
    answered, [DoMount] returns success. *)
Theorem DoMount_lost_dir (host : Host) (source target : string)
    (ro remount executable : bool) (ownerUid ownerGid permMask : Z)
    (createLost : bool) (w : World) :
  let '(rc, w') :=
    DoMount host source target ro remount executable
            ownerUid ownerGid permMask createLost w in
  let lost_path := (target ++ "/LOST.DIR")%string in
  let probes := filter is_access (since w w') in
  let creations := filter is_mkdir (since w w') in
  (if (rc =? 0) && createLost
   then exists ra : Reply,
          probes = [(access lost_path F_OK, ra)] /\
          if ret ra =? 0 then creations = []
          else exists rm : Reply, creations = [(mkdir lost_path mode_0755, rm)]
   else probes = [] /\ creations = []) /\
  (creations <> [] -> rc = 0).
Proof.
  split_run. rewrite Hs. clear Hs. subst rc.
  set (retry := negb (ret r1 =? 0) && (e1 =? EROFS)).
  set (rc := if retry then ret r2 else ret r1).
  destruct retry; destruct ((rc =? 0) && createLost) eqn:Hprobe;
    cbn [andb app filter is_access is_mkdir fst];
    try (destruct (ret ra =? 0) eqn:Hra;
         cbn [negb app filter is_access is_mkdir fst]).
  all: split;
    [ try (exists ra; split; [reflexivity|]; rewrite ?Hra;
           try reflexivity; exists rm; reflexivity);
      try (split; reflexivity)
    | intros Hc; try (exfalso; apply Hc; reflexivity);
      apply andb_prop in Hprobe; destruct Hprobe as [Hrc _]; lia ].
Qed.

Lemma DoMount_lost_dir_witness :
  let '(rc, w') :=
    DoMount write_protected "/dev/block/vold/public:8,1"
            "/mnt/media_rw/1234-ABCD" false false false 1000 1000 7 true
            boot in
  filter is_mkdir (since boot w')
  = [(mkdir "/mnt/media_rw/1234-ABCD/LOST.DIR" 493, mkReply (-1) (Some EROFS))]
  /\ rc = 0.
Proof.
  pose proof (DoMount_lost_dir write_protected
                "/dev/block/vold/public:8,1" "/mnt/media_rw/1234-ABCD"
                false false false 1000 1000 7 true boot) as H.
  destruct (DoMount write_protected _ _ false false false 1000 1000 7 true boot)
    as [rc w'] eqn:E.
  destruct H as [_ Hrc].
  assert (Hc : filter is_mkdir (since boot w')
               = [(mkdir "/mnt/media_rw/1234-ABCD/LOST.DIR" 493,
                   mkReply (-1) (Some EROFS))]).
  { vm_compute in E. injection E as <- <-. reflexivity. }
  split; [exact Hc|]. apply Hrc. rewrite Hc. discriminate.
Defined.

(** ** The formatter *)

Lemma fmt_lu_value (n : Z) :
  0 <= n < 2 ^ 64 -> value_from 10 0 (fmt_lu n) = n.
Proof.
  intros Hn. unfold fmt_lu, to_unsigned.
  rewrite Z.mod_small by lia. apply fmt_unsigned_value; lia.
Qed.

(** C7: [Format] runs the format tool once, on the arguments -O, android,
    -A, then -s and the sector count in decimal when the count is not 0,
    then the source; it returns 0 exactly when the tool returned 0, and on
    any other value, a failure to launch included, it returns -1 with
    [errno] set to [EIO]. *)
Theorem Format_command (host : Host) (source : string) (numSectors : Z)
    (w : World) :
  let '(rc, w') := Format host source numSectors w in
  exists r : Reply,
    since w w'
    = [(helper (ForkExecvp
                  (kMkfsPath ::
                   ["-O"; "android"; "-A"] ++
                   (if numSectors =? 0 then [] else ["-s"; fmt_lu numSectors]) ++
                   [source])%list), r)] /\
    (rc = 0 <-> ret r = 0) /\
    (ret r <> 0 -> rc = -1 /\ errno w' = EIO).
Proof.
  unfold Format. exec.
  set (c := helper (ForkExecvp (mkfs_cmd source numSectors))).
  set (r := host (history w) c).
  assert (Hcmd : c = helper (ForkExecvp
                  (kMkfsPath ::
                   ["-O"; "android"; "-A"] ++
                   (if numSectors =? 0 then [] else ["-s"; fmt_lu numSectors]) ++
                   [source])%list)).
  { unfold c, mkfs_cmd. destruct (numSectors =? 0); reflexivity. }
  rewrite <- Hcmd.
  destruct (ret r <? 0) eqn:Hneg; [|destruct (ret r =? 0) eqn:Hzero]; exec;
    exists r; (split; [read_since; reflexivity|]);
    cbn [errno]; split; try split; intros; try split; try reflexivity; lia.
Qed.

Lemma Format_command_witness :
  (let '(rc, w') := Format (tool_exits 1) "/dev/block/sda1" 2048 boot in
   since boot w'
   = [(helper (ForkExecvp ["/system/bin/newfs_msdos"; "-O"; "android"; "-A";
                           "-s"; "2048"; "/dev/block/sda1"]),
       mkReply 1 None)] /\
   rc = -1 /\ errno w' = EIO) /\
  (let '(rc, w') := Format (tool_exits 0) "/dev/block/sda1" 0 boot in
   since boot w'
   = [(helper (ForkExecvp ["/system/bin/newfs_msdos"; "-O"; "android"; "-A";
                           "/dev/block/sda1"]),
       mkReply 0 None)] /\
   rc = 0).
Proof.
  split.
  - pose proof (Format_command (tool_exits 1) "/dev/block/sda1" 2048 boot) as H.
    destruct (Format (tool_exits 1) "/dev/block/sda1" 2048 boot) as [rc w'] eqn:E.
    destruct H as (r & Hs & _ & Hfail).
    assert (Hr : r = mkReply 1 None).
    { vm_compute in E. injection E as <- <-. vm_compute in Hs.
      injection Hs as <-. reflexivity. }
    subst r. split; [exact Hs|]. apply Hfail. discriminate.
  - pose proof (Format_command (tool_exits 0) "/dev/block/sda1" 0 boot) as H.
    destruct (Format (tool_exits 0) "/dev/block/sda1" 0 boot) as [rc w'] eqn:E.
    destruct H as (r & Hs & Hok & _).
    assert (Hr : r = mkReply 0 None).
    { vm_compute in E. injection E as <- <-. vm_compute in Hs.
      injection Hs as <-. reflexivity. }
    subst r. split; [exact Hs|]. apply Hok. reflexivity.
Defined.

(** ** The support prober *)

(** C8: [IsSupported] answers true exactly when the format tool is
    executable, the check tool is executable and the kernel supports vfat,
    each as the host answers when asked; it always answers, and it makes no
    call that changes the host. *)
Theorem IsSupported_iff (host : Host) (w : World) :
  let '(supported, w') := IsSupported host w in
  let mkfs := access kMkfsPath X_OK in
  let fsck := access kFsckPath X_OK in
  let r1 := host (history w) mkfs in
  let r2 := host ((mkfs, r1) :: history w) fsck in
  let r3 := host ((fsck, r2) :: (mkfs, r1) :: history w)
                 (IsFilesystemSupported "vfat") in
  (supported = true <-> ret r1 = 0 /\ ret r2 = 0 /\ ret r3 <> 0) /\
  mutations (since w w') = [].
Proof.
  unfold IsSupported. exec.
  set (mkfs := access kMkfsPath X_OK).
  set (fsck := access kFsckPath X_OK).
  set (r1 := host (history w) mkfs).
  destruct (ret r1 =? 0) eqn:H1; exec.
  - change (history (after host mkfs w)) with ((mkfs, r1) :: history w).
    set (r2 := host ((mkfs, r1) :: history w) fsck).
    destruct (ret r2 =? 0) eqn:H2; exec.
    + change (history (after host fsck (after host mkfs w)))
        with ((fsck, r2) :: (mkfs, r1) :: history w).
      set (r3 := host _ (helper (IsFilesystemSupported "vfat"))).
      split; [|read_since; reflexivity].
      destruct (ret r3 =? 0) eqn:H3; cbn [negb]; split; intros; try split;
        try split; try reflexivity; try discriminate; lia.
    + split; [|read_since; reflexivity].
      split; intros; [discriminate|lia].
  - split; [|read_since; reflexivity].
    split; intros; [discriminate|lia].
Qed.

Lemma IsSupported_iff_witness :
  let '(supported, w') := IsSupported (host_at_offset 0) boot in
  supported = true.
Proof.
  pose proof (IsSupported_iff (host_at_offset 0) boot) as H.
  destruct (IsSupported (host_at_offset 0) boot) as [supported w'].
  destruct H as [[_ H] _]. apply H.
  repeat split; vm_compute; discriminate.
Defined.

(** ** The timestamp offset calculator *)

Lemma to_signed_small (k x : Z) :
  0 < k -> - 2 ^ (k - 1) <= x < 2 ^ (k - 1) -> to_signed k x = x.
Proof.
  intros Hk Hx. unfold to_signed.
  assert (H2 : 2 ^ k = 2 * 2 ^ (k - 1)).
  { replace k with (Z.succ (k - 1)) at 1 by lia. apply Z.pow_succ_r. lia. }
  rewrite Z.mod_small by lia. lia.
Qed.

Lemma to_signed_range (k x : Z) :
  0 < k -> - 2 ^ (k - 1) <= to_signed k x < 2 ^ (k - 1).
Proof.
  intros Hk. unfold to_signed.
  assert (H2 : 2 ^ k = 2 * 2 ^ (k - 1)).
  { replace k with (Z.succ (k - 1)) at 1 by lia. apply Z.pow_succ_r. lia. }
  assert (Hp : 0 < 2 ^ (k - 1)) by (apply Z.pow_pos_nonneg; lia).
  pose proof (Z.mod_pos_bound (x + 2 ^ (k - 1)) (2 ^ k)). lia.
Qed.

(** C10 (as amended): [currentUtcOffsetMinutes] reads the clock, asks for
    the local time of that very instant and nothing else, and returns the
    seconds-from-UTC field of the answer narrowed to 32 bits, divided by 60
    toward zero and narrowed to 16 bits: always a value of the signed 16-bit
    range, and, whenever the field divided by 60 toward zero is in that
    range (every time zone is, by far), that quotient itself, so -1 for -90
    seconds. *)
Theorem currentUtcOffsetMinutes_truncates (host : Host) (w : World) :
  let '(minutes, w') := currentUtcOffsetMinutes host w in
  let rt := host (history w) time in
  let rl := host ((time, rt) :: history w) (localtime_r (ret rt)) in
  let tm_gmtoff := ret rl in
  since w w' = [(time, rt); (localtime_r (ret rt), rl)] /\
  minutes = to_int16 (to_int32 tm_gmtoff ÷ 60) /\
  -32768 <= minutes <= 32767 /\
  (-32768 <= tm_gmtoff ÷ 60 <= 32767 -> minutes = tm_gmtoff ÷ 60).
Proof.
  unfold currentUtcOffsetMinutes. exec.
  set (rt := host (history w) time).
  change (history (after host time w)) with ((time, rt) :: history w).
  set (rl := host ((time, rt) :: history w) (localtime_r (ret rt))).
  split; [read_since; reflexivity|].
  split; [reflexivity|].
  split.
  - pose proof (to_signed_range 16 (to_int32 (ret rl) ÷ 60)).
    unfold to_int16. change (2 ^ (16 - 1)) with 32768 in *. lia.
  - intros Hrange.
    assert (Hbound : -1966140 < ret rl < 1966140).
    { pose proof (Z.quot_rem' (ret rl) 60) as Hqr.
      pose proof (Z.rem_bound_abs (ret rl) 60) as Hrem.
      assert (Z.abs (Z.rem (ret rl) 60) < 60) by lia. lia. }
    unfold to_int32, to_int16.
    rewrite (to_signed_small 32 (ret rl))
      by (change (2 ^ (32 - 1)) with 2147483648; lia).
    apply to_signed_small; [lia|]. change (2 ^ (16 - 1)) with 32768. lia.
Qed.

Lemma currentUtcOffsetMinutes_truncates_witness :
  (let '(minutes, w') := currentUtcOffsetMinutes (host_at_offset (-90)) boot in
   minutes = -1) /\
  (let '(minutes, w') := currentUtcOffsetMinutes summer_time boot in
   minutes = -240).
Proof.
  split.
  - pose proof (currentUtcOffsetMinutes_truncates (host_at_offset (-90)) boot)
      as H.
    destruct (currentUtcOffsetMinutes (host_at_offset (-90)) boot)
      as [minutes w'].
    destruct H as (_ & _ & _ & H).
    apply H. vm_compute. split; discriminate.
  - pose proof (currentUtcOffsetMinutes_truncates summer_time boot) as H.
    destruct (currentUtcOffsetMinutes summer_time boot) as [minutes w'].
    destruct H as (_ & _ & _ & H).
    apply H. vm_compute. split; discriminate.
Defined.

(** C10 as stated fails: a seconds-from-UTC field of 1966080 is 32768
    minutes, which the 16-bit result cannot hold; the function returns
    -32768. *)
Lemma currentUtcOffsetMinutes_wraps :
  let '(minutes, w') := currentUtcOffsetMinutes (host_at_offset 1966080) boot in
  minutes = -32768 /\ minutes <> 1966080 ÷ 60.
Proof.
  vm_compute. split; [reflexivity|discriminate].
Qed.

(** * Further properties of the code *)

(** ** The integrity checker, over all its attempts *)

Section CheckRuns.

Variable host : Host.
Variable source : string.

(** The shape of a run of the loop: the attempts before the last all
    answered 4, there are no more of them than rechecks left, and the
    result and [errno] are read off the answer of the last attempt. *)
Lemma Check_loop_shape (n : nat) :
  forall (pass : Z) (w : World),
    rechecks_left pass = n ->
    exists (pre : list Event) (r : Reply),
      history (snd (Check_loop host source pass w))
        = ((fsck_call source, r) :: pre ++ history w)%list /\
      Forall (fun e => fst e = fsck_call source /\ ret (snd e) = 4) pre /\
      (length pre <= n)%nat /\
      (ret r = 4 -> length pre = n) /\
      fst (Check_loop host source pass w) = (if ret r =? 0 then 0 else -1) /\
      (ret r <> 0 -> ret r <> 1 ->
       errno (snd (Check_loop host source pass w))
       = if (ret r =? 2) || (ret r =? 8) then ENODATA
         else if ret r =? ETIMEDOUT then ETIMEDOUT
         else EIO) /\
      (ret r = 0 \/ ret r = 1 ->
       forall e, err r = Some e ->
                 errno (snd (Check_loop host source pass w)) = e).
Proof.
  induction n as [|n IH]; intros pass w Hn; rewrite Check_loop_step;
    set (c := fsck_call source); set (r := host (history w) c).
  all: repeat match goal with
         | |- context [if ?b then _ else _] => destruct b eqn:?
         end.
  all: try solve
    [ exists [], r; cbn [fst snd history app length];
      rewrite ?history_after, ?errno_after; fold c r;
      split; [reflexivity|]; split; [constructor|]; split; [lia|];
      split; [unfold rechecks_left in *; lia|];
      split; [destruct (ret r =? 0) eqn:?; try reflexivity; lia|];
      split;
      [ intros Hne0 Hne1; unfold ETIMEDOUT in *; cbn [errno];
        repeat match goal with
               | |- context [if ?b then _ else _] => destruct b eqn:?
               end; try reflexivity; lia
      | intros Hr e He; first [exfalso; lia | rewrite He; reflexivity] ] ].
  - exfalso. unfold rechecks_left in Hn. lia.
  - destruct (IH (pass + 1) (after host c w))
      as (pre & r' & Hh & Hpre & Hlen & Hfull & Hrc & Herr & Hkeep).
    { unfold rechecks_left in *. lia. }
    exists (pre ++ [(c, r)])%list, r'.
    rewrite Hh, history_after. fold r.
    split; [rewrite <- app_assoc; reflexivity|].
    split.
    { apply Forall_app. split; [exact Hpre|].
      constructor; [|constructor]. split; [reflexivity|]. cbn [snd]. lia. }
    rewrite length_app. cbn [length].
    split; [lia|]. split; [intros H4; specialize (Hfull H4); lia|].
    split; [exact Hrc|]. split; [exact Herr|exact Hkeep].
Qed.

End CheckRuns.

(** Splits the run of [Check] in the goal into its attempts. *)
Ltac split_check :=
  match goal with
  | |- context [Check ?h ?s ?w] =>
      let pre := fresh "pre" in let r := fresh "r" in
      let Hh := fresh "Hh" in let Hpre := fresh "Hpre" in
      let Hlen := fresh "Hlen" in let Hfull := fresh "Hfull" in
      let Hrc := fresh "Hrc" in let Herr := fresh "Herr" in
      let Hkeep := fresh "Hkeep" in
      destruct (Check_loop_shape h s 3 1 w eq_refl)
        as (pre & r & Hh & Hpre & Hlen & Hfull & Hrc & Herr & Hkeep);
      fold (Check h s) in Hh, Hrc, Herr, Hkeep;
      destruct (Check h s w) as [rc w'];
      cbn [fst snd] in Hh, Hrc, Herr, Hkeep;
      rewrite (since_app w w' ((fsck_call s, r) :: pre) Hh);
      cbn [rev]
  end.

Lemma Forall_dirty_rev (c : Call) (l : list Event) :
  Forall (fun e => fst e = c /\ ret (snd e) = 4) l ->
  Forall (fun e => ret (snd e) = 4) (rev l).
Proof.
  intros H. apply Forall_rev. revert H. apply Forall_impl.
  intros e [_ He]. exact He.
Qed.

(** X1: [Check] runs the tool again only after the dirty status 4: in every
    run, each attempt before the last answered 4, there are at most three of
    them, and a last attempt that answered 4 is the fourth. *)
Theorem Check_reruns_only_on_dirty (host : Host) (source : string)
    (w : World) :
  let '(rc, w') := Check host source w in
  exists (earlier : list Event) (last : Reply),
    since w w' = (earlier ++ [(fsck_call source, last)])%list /\
    Forall (fun e => ret (snd e) = 4) earlier /\
    (length earlier <= 3)%nat /\
    (ret last = 4 -> length earlier = 3%nat).
Proof.
  split_check. exists (rev pre), r.
  split; [reflexivity|].
  split; [apply (Forall_dirty_rev (fsck_call source)); exact Hpre|].
  rewrite length_rev. split; [exact Hlen|exact Hfull].
Qed.

Lemma Check_reruns_only_on_dirty_witness :
  let '(rc, w') := Check (tool_exits 4) "/dev/block/sda1" boot in
  length (since boot w') = 4%nat.
Proof.
  pose proof (Check_reruns_only_on_dirty (tool_exits 4) "/dev/block/sda1" boot)
    as H.
  destruct (Check (tool_exits 4) "/dev/block/sda1" boot) as [rc w'] eqn:E.
  destruct H as (earlier & last & Hs & _ & _ & Hfull).
  assert (Hw : since boot w'
               = ([(fsck_call "/dev/block/sda1", mkReply 4 None);
                   (fsck_call "/dev/block/sda1", mkReply 4 None);
                   (fsck_call "/dev/block/sda1", mkReply 4 None)]
                  ++ [(fsck_call "/dev/block/sda1", mkReply 4 None)])%list).
  { vm_compute in E. injection E as <- <-. reflexivity. }
  assert (Hlast : ret last = 4).
  { rewrite Hw in Hs. apply app_inj_tail in Hs.
    destruct Hs as [_ Hs]. injection Hs as <-. reflexivity. }
  rewrite Hs, length_app, (Hfull Hlast). reflexivity.
Defined.

(** X2: [Check] returns 0 or -1, and 0 exactly when the last attempt of the
    run answered 0, however many dirty attempts came before. *)
Theorem Check_result_of_last_attempt (host : Host) (source : string)
    (w : World) :
  let '(rc, w') := Check host source w in
  exists (earlier : list Event) (last : Reply),
    since w w' = (earlier ++ [(fsck_call source, last)])%list /\
    (rc = 0 \/ rc = -1) /\
    (rc = 0 <-> ret last = 0).
Proof.
  split_check. exists (rev pre), r.
  split; [reflexivity|].
  destruct (ret r =? 0) eqn:H0; subst rc; split; try split; intros;
    try lia; auto.
Qed.

Lemma Check_result_of_last_attempt_witness :
  let '(rc, w') := Check (dirty_then 2 0) "/dev/block/sda1" boot in
  rc = 0 /\ length (since boot w') = 3%nat.
Proof.
  pose proof (Check_result_of_last_attempt (dirty_then 2 0) "/dev/block/sda1"
                boot) as H.
  destruct (Check (dirty_then 2 0) "/dev/block/sda1" boot) as [rc w'] eqn:E.
  destruct H as (earlier & last & Hs & _ & Hiff).
  assert (Hw : since boot w'
               = ([(fsck_call "/dev/block/sda1", mkReply 4 None);
                   (fsck_call "/dev/block/sda1", mkReply 4 None)]
                  ++ [(fsck_call "/dev/block/sda1", mkReply 0 None)])%list).
  { vm_compute in E. injection E as <- <-. reflexivity. }
  split; [|rewrite Hw; reflexivity].
  apply Hiff. rewrite Hw in Hs. apply app_inj_tail in Hs.
  destruct Hs as [_ Hs]. injection Hs as <-. reflexivity.
Defined.

(** X3: what [Check] leaves in [errno] depends on the answer of the last
    attempt alone: [ENODATA] after 2 and 8, [ETIMEDOUT] after 110, [EIO]
    after every other answer but 0 and 1 (a negative answer and a fourth
    dirty answer included); after 0 and after 1 [Check] has not written
    [errno], which is as the last run of the tool left it. *)
Theorem Check_errno_of_last_attempt (host : Host) (source : string)
    (w : World) :
  let '(rc, w') := Check host source w in
  exists (earlier : list Event) (last : Reply),
    since w w' = (earlier ++ [(fsck_call source, last)])%list /\
    (ret last = 2 \/ ret last = 8 -> errno w' = ENODATA) /\
    (ret last = ETIMEDOUT -> errno w' = ETIMEDOUT) /\
    (ret last <> 0 -> ret last <> 1 -> ret last <> 2 -> ret last <> 8 ->
     ret last <> ETIMEDOUT -> errno w' = EIO) /\
    (ret last = 0 \/ ret last = 1 ->
     forall e, err last = Some e -> errno w' = e).
Proof.
  split_check. exists (rev pre), r.
  split; [reflexivity|]. unfold ETIMEDOUT in *.
  split; [|split; [|split]].
  - intros H28. rewrite Herr by lia.
    destruct H28 as [-> | ->]; reflexivity.
  - intros H110. rewrite Herr by lia. rewrite H110. reflexivity.
  - intros H0 H1 H2 H8 H110. rewrite Herr by assumption.
    replace (ret r =? 2) with false by lia.
    replace (ret r =? 8) with false by lia.
    replace (ret r =? 110) with false by lia. reflexivity.
  - exact Hkeep.
Qed.

Lemma Check_errno_of_last_attempt_witness :
  let '(rc, w') := Check (dirty_then 1 8) "/dev/block/sda1" boot in
  errno w' = ENODATA /\ length (since boot w') = 2%nat.
Proof.
  pose proof (Check_errno_of_last_attempt (dirty_then 1 8) "/dev/block/sda1"
                boot) as H.
  destruct (Check (dirty_then 1 8) "/dev/block/sda1" boot) as [rc w'] eqn:E.
  destruct H as (earlier & last & Hs & Hnodata & _).
  assert (Hw : since boot w'
               = ([(fsck_call "/dev/block/sda1", mkReply 4 None)]
                  ++ [(fsck_call "/dev/block/sda1", mkReply 8 None)])%list).
  { vm_compute in E. injection E as <- <-. reflexivity. }
  split; [|rewrite Hw; reflexivity].
  apply Hnodata. right. rewrite Hw in Hs. apply app_inj_tail in Hs.
  destruct Hs as [_ Hs]. injection Hs as <-. reflexivity.
Defined.

(** ** The support prober, probe by probe *)

(** X4: [IsSupported] probes in a fixed order and stops at the first probe
    that fails: the format tool alone when it is not executable; then the
    check tool, and no more when that one is not executable; the kernel is
    asked about vfat only when both tools are executable, and its answer is
    then the result. *)
Theorem IsSupported_short_circuit (host : Host) (w : World) :
  let '(supported, w') := IsSupported host w in
  let mkfs := access kMkfsPath X_OK in
  let fsck := access kFsckPath X_OK in
  let vfat := helper (IsFilesystemSupported "vfat") in
  (exists r1 : Reply,
     since w w' = [(mkfs, r1)] /\ ret r1 <> 0 /\ supported = false) \/
  (exists r1 r2 : Reply,
     since w w' = [(mkfs, r1); (fsck, r2)] /\
     ret r1 = 0 /\ ret r2 <> 0 /\ supported = false) \/
  (exists r1 r2 r3 : Reply,
     since w w' = [(mkfs, r1); (fsck, r2); (vfat, r3)] /\
     ret r1 = 0 /\ ret r2 = 0 /\ supported = negb (ret r3 =? 0)).
Proof.
  unfold IsSupported. exec.
  set (mkfs := access kMkfsPath X_OK).
  set (fsck := access kFsckPath X_OK).
  set (vfat := helper (IsFilesystemSupported "vfat")).
  set (r1 := host (history w) mkfs).
  destruct (ret r1 =? 0) eqn:H1; exec.
  - set (r2 := host (history (after host mkfs w)) fsck).
    destruct (ret r2 =? 0) eqn:H2; exec.
    + right. right.
      exists r1, r2, (host (history (after host fsck (after host mkfs w))) vfat).
      split; [read_since; reflexivity|].
      split; [lia|]. split; [lia|reflexivity].
    + right. left. exists r1, r2.
      split; [read_since; reflexivity|].
      split; [lia|]. split; [lia|reflexivity].
  - left. exists r1.
    split; [read_since; reflexivity|]. split; [lia|reflexivity].
Qed.

(** ** The mount orchestrator, call by call *)

(** X5: every bit [DoMount] sets in the flags of a mount, first attempt or
    read-only retry, is one of the seven it names: no-device-nodes,
    no-setuid, synchronous directory updates, no-access-time updates,
    no-execute, read-only and remount. *)
Theorem DoMount_flags_within_policy (host : Host) (source target : string)
    (ro remount executable : bool) (ownerUid ownerGid permMask : Z)
    (createLost : bool) (w : World) :
  let '(rc, w') :=
    DoMount host source target ro remount executable
            ownerUid ownerGid permMask createLost w in
  Forall (fun flags => Z.land flags policy_flags = flags)
         (mount_flags (since w w')).
Proof.
  split_run. rewrite Hs. clear Hs.
  destruct (negb _ && _); destruct (_ && createLost); cbn [andb];
    try destruct (negb (ret ra =? 0));
    cbn [app flat_map mount_flags fst];
    repeat constructor;
    destruct executable, ro, remount; reflexivity.
Qed.

(** X6: the read-only retry keeps the policy of the first attempt: its
    flags hold read-only whatever [ro] was, no-execute exactly when
    [executable] is false, remount exactly when [remount] is true, and the
    four fixed flags; when [ro] was already true the retry repeats the
    first mount with the very same flags. *)
Theorem DoMount_retry_keeps_policy (host : Host) (source target : string)
    (ro remount executable : bool) (ownerUid ownerGid permMask : Z)
    (createLost : bool) (w : World) :
  let '(rc, w') :=
    DoMount host source target ro remount executable
            ownerUid ownerGid permMask createLost w in
  forall first second : Z,
    mount_flags (since w w') = [first; second] ->
    has_flag second MS_RDONLY = true /\
    has_flag second MS_NOEXEC = negb executable /\
    has_flag second MS_REMOUNT = remount /\
    has_flag second MS_NODEV = true /\
    has_flag second MS_NOSUID = true /\
    has_flag second MS_DIRSYNC = true /\
    has_flag second MS_NOATIME = true /\
    (ro = true -> second = first).
Proof.
  split_run. rewrite Hs. clear Hs. intros first second.
  destruct (negb _ && _); destruct (_ && createLost); cbn [andb];
    try destruct (negb (ret ra =? 0));
    cbn [app flat_map mount_flags fst];
    intros Hf; try discriminate Hf;
    injection Hf as <- <-;
    destruct executable, ro, remount; repeat split; intros; discriminate.
Qed.

Lemma DoMount_retry_keeps_policy_witness :
  let '(rc, w') :=
    DoMount write_protected "/dev/block/vold/public:8,1"
            "/mnt/media_rw/1234-ABCD" false false true 1000 1000 7 false
            boot in
  mount_flags (since boot w') = [1158; 1159] /\
  has_flag 1159 MS_NOEXEC = false.
Proof.
  pose proof (DoMount_retry_keeps_policy write_protected
                "/dev/block/vold/public:8,1" "/mnt/media_rw/1234-ABCD"
                false false true 1000 1000 7 false boot) as H.
  destruct (DoMount write_protected _ _ false false true 1000 1000 7 false boot)
    as [rc w'] eqn:E.
  assert (Hf : mount_flags (since boot w') = [1158; 1159]).
  { vm_compute in E. injection E as <- <-. reflexivity. }
  split; [exact Hf|].
  destruct (H 1158 1159 Hf) as (_ & Hexec & _). exact Hexec.
Defined.

(** X7: a [DoMount] that fails made no call after the failing mount: that
    mount is the last call of the run, its return value is the result, and
    the [errno] it set is the [errno] the caller finds. *)
Theorem DoMount_failure_keeps_errno (host : Host) (source target : string)
    (ro remount executable : bool) (ownerUid ownerGid permMask : Z)
    (createLost : bool) (w : World) :
  let '(rc, w') :=
    DoMount host source target ro remount executable
            ownerUid ownerGid permMask createLost w in
  rc <> 0 ->
  exists (earlier : list Event) (flags : Z) (data : string) (r : Reply),
    since w w'
      = (earlier ++ [(mount source target "vfat" flags data, r)])%list /\
    ret r = rc /\
    forall e, err r = Some e -> errno w' = e.
Proof.
  unfold DoMount, currentUtcOffsetMinutes. exec.
  set (rt := host (history w) time).
  set (w1 := after host time w).
  set (rl := host (history w1) (localtime_r (ret rt))).
  set (w2 := after host (localtime_r (ret rt)) w1).
  set (flags := Z.lor (Z.lor _ _) (if remount then MS_REMOUNT else 0)).
  set (data := ((_ ++ _) ++ ",time_offset=" ++ _)%string).
  set (c1 := mount source target "vfat" flags data).
  set (r1 := host (history w2) c1).
  set (w3 := after host c1 w2).
  set (c2 := mount source target "vfat" (Z.lor flags MS_RDONLY) data).
  destruct (negb (ret r1 =? 0) && (errno w3 =? EROFS)) eqn:Hretry; exec.
  - set (r2 := host (history w3) c2). set (w4 := after host c2 w3).
    destruct ((ret r2 =? 0) && createLost) eqn:Hprobe; exec;
      [destruct (negb (ret (host (history w4) _) =? 0)); exec;
       intros Hrc; exfalso; lia|].
    intros Hrc.
    exists [(time, rt); (localtime_r (ret rt), rl); (c1, r1)],
           (Z.lor flags MS_RDONLY), data, r2.
    split; [read_since; reflexivity|]. split; [reflexivity|].
    intros e He. unfold w4. rewrite errno_after. fold r2. rewrite He.
    reflexivity.
  - destruct ((ret r1 =? 0) && createLost) eqn:Hprobe; exec;
      [destruct (negb (ret (host (history w3) (access _ _)) =? 0)); exec;
       intros Hrc; exfalso; lia|].
    intros Hrc.
    exists [(time, rt); (localtime_r (ret rt), rl)], flags, data, r1.
    split; [read_since; reflexivity|]. split; [reflexivity|].
    intros e He. unfold w3. rewrite errno_after. fold r1. rewrite He.
    reflexivity.
Qed.

Lemma DoMount_failure_keeps_errno_witness :
  let '(rc, w') :=
    DoMount faulty_medium "/dev/block/vold/public:8,1"
            "/mnt/media_rw/1234-ABCD" false false false 1000 1000 7 true
            boot in
  rc = -1 /\ errno w' = EIO /\ length (since boot w') = 3%nat.
Proof.
  pose proof (DoMount_failure_keeps_errno faulty_medium
                "/dev/block/vold/public:8,1" "/mnt/media_rw/1234-ABCD"
                false false false 1000 1000 7 true boot) as H.
  destruct (DoMount faulty_medium _ _ false false false 1000 1000 7 true boot)
    as [rc w'] eqn:E.
  assert (Hrc : rc = -1) by (vm_compute in E; injection E as <- _; reflexivity).
  destruct H as (earlier & flags & data & r & Hs & _ & Herrno);
    [rewrite Hrc; discriminate|].
  assert (Hw : since boot w'
               = ([(time, mkReply 0 None); (localtime_r 0, mkReply 0 None)]
                  ++ [(mount "/dev/block/vold/public:8,1"
                             "/mnt/media_rw/1234-ABCD" "vfat" 1166
                             "utf8,uid=1000,gid=1000,fmask=7,dmask=7,shortname=mixed,time_offset=0",
                       mkReply (-1) (Some EIO))])%list).
  { vm_compute in E. injection E as _ <-. reflexivity. }
  split; [exact Hrc|]. split; [|rewrite Hw; reflexivity].
  apply Herrno. rewrite Hw in Hs. apply app_inj_tail in Hs.
  destruct Hs as [_ Hs]. injection Hs as _ _ <-. reflexivity.
Defined.

(** X8: the calls of [DoMount] come in one order: the clock is read once,
    first, and the local time is asked for that very instant; then come one
    or two mounts; only after the last mount, and only when it succeeded,
    may the look-up and the creation of LOST.DIR follow; and the result is
    what the last mount returned. *)
Theorem DoMount_call_order (host : Host) (source target : string)
    (ro remount executable : bool) (ownerUid ownerGid permMask : Z)
    (createLost : bool) (w : World) :
  let '(rc, w') :=
    DoMount host source target ro remount executable
            ownerUid ownerGid permMask createLost w in
  exists (rt rl : Reply) (retried : list Event) (last_mount : Event)
         (after_mounts : list Event),
    since w w'
      = ([(time, rt); (localtime_r (ret rt), rl)] ++
         retried ++ [last_mount] ++ after_mounts)%list /\
    Forall (fun e => is_mount e = true) (retried ++ [last_mount]) /\
    (length retried <= 1)%nat /\
    Forall (fun e => is_mount e = false) after_mounts /\
    rc = ret (snd last_mount) /\
    (rc <> 0 -> after_mounts = []).
Proof.
  split_run. rewrite Hs. clear Hs. subst rc.
  set (retry := negb (ret r1 =? 0) && (e1 =? EROFS)).
  set (flags := Z.lor (Z.lor _ _) (if remount then MS_REMOUNT else 0)).
  set (data := ((_ ++ _) ++ ",time_offset=" ++ _)%string).
  set (m1 := (mount source target "vfat" flags data, r1)).
  set (m2 := (mount source target "vfat" (Z.lor flags MS_RDONLY) data, r2)).
  set (rc := if retry then ret r2 else ret r1).
  set (tail := ((if (rc =? 0) && createLost then _ else @nil Event)
                ++ _)%list).
  assert (Htail : Forall (fun e => is_mount e = false) tail /\
                  (rc <> 0 -> tail = [])).
  { unfold tail. destruct (rc =? 0) eqn:Hrc; cbn [andb].
    - split; [|lia]. destruct createLost; cbn [andb];
        try destruct (negb (ret ra =? 0)); repeat constructor.
    - split; [constructor|reflexivity]. }
  destruct Htail as [Htail Hnone].
  destruct retry; subst rc.
  - exists rt, rl, [m1], m2, tail.
    split; [reflexivity|]. split; [repeat constructor|].
    split; [cbn; lia|]. split; [exact Htail|]. split; [reflexivity|exact Hnone].
  - exists rt, rl, [], m1, tail.
    split; [reflexivity|]. split; [repeat constructor|].
    split; [cbn; lia|]. split; [exact Htail|]. split; [reflexivity|exact Hnone].
Qed.

Lemma DoMount_call_order_witness :
  let '(rc, w') :=
    DoMount faulty_medium "/dev/block/vold/public:8,1"
            "/mnt/media_rw/1234-ABCD" false false false 1000 1000 7 true
            boot in
  exists (earlier : list Event) (m : Event),
    since boot w' = (earlier ++ [m])%list /\
    is_mount m = true /\ rc = ret (snd m).
Proof.
  pose proof (DoMount_call_order faulty_medium
                "/dev/block/vold/public:8,1" "/mnt/media_rw/1234-ABCD"
                false false false 1000 1000 7 true boot) as H.
  destruct (DoMount faulty_medium _ _ false false false 1000 1000 7 true boot)
    as [rc w'] eqn:E.
  assert (Hrc : rc <> 0)
    by (vm_compute in E; injection E as <- _; discriminate).
  destruct H as (rt & rl & retried & m & tail & Hs & Hm & _ & _ & Hret & Hnone).
  rewrite (Hnone Hrc), app_nil_r, app_assoc in Hs.
  exists ([(time, rt); (localtime_r (ret rt), rl)] ++ retried)%list, m.
  split; [exact Hs|]. split; [|exact Hret].
  apply Forall_app in Hm. destruct Hm as [_ Hm].
  inversion Hm. assumption.
Defined.

(** ** The formatter's size override *)

Lemma digit_char_is_digit (d : Z) :
  0 <= d < 10 -> is_digit (digit_char d) = true.
Proof.
  intros Hd. unfold is_digit, digit_char.
  rewrite nat_ascii_embedding by lia.
  apply andb_true_intro. split; apply Nat.leb_le; lia.
Qed.

Lemma digits_loop_all_digits (base : Z) (Hb : 2 <= base <= 10) :
  forall (fuel : nat) (n : Z) (acc : string),
    all_digits acc = true ->
    all_digits (digits_loop base fuel n acc) = true.
Proof.
  induction fuel as [|fuel IH]; intros n acc Hacc; [exact Hacc|].
  simpl digits_loop.
  assert (Hmod : 0 <= n mod base < base) by (apply Z.mod_pos_bound; lia).
  assert (Hstep : all_digits (String (digit_char (n mod base)) acc) = true).
  { cbn [all_digits]. rewrite digit_char_is_digit by lia. exact Hacc. }
  destruct (n / base =? 0); [exact Hstep|]. apply IH. exact Hstep.
Qed.

Example all_digits_colon : all_digits "1:" = false.
Proof. reflexivity. Qed.

Lemma fmt_lu_all_digits (n : Z) : all_digits (fmt_lu n) = true.
Proof.
  unfold fmt_lu, fmt_unsigned. apply digits_loop_all_digits; [lia|].
  reflexivity.
Qed.

(** X9: for a sector count other than 0, the argument [Format] puts after
    -s is the count in decimal: a string of the characters 0 to 9 only,
    that does not start with 0 and reads back as the count; the source
    stays the last argument. *)
Theorem Format_sector_count_round_trip (host : Host) (source : string)
    (numSectors : Z) (w : World) :
  0 < numSectors < 2 ^ 64 ->
  let '(rc, w') := Format host source numSectors w in
  exists (arg : string) (r : Reply),
    since w w'
    = [(helper (ForkExecvp [kMkfsPath; "-O"; "android"; "-A";
                            "-s"; arg; source]), r)] /\
    all_digits arg = true /\
    value_from 10 0 arg = numSectors /\
    exists (d : Z) (rest : string),
      arg = String (digit_char d) rest /\ 0 < d < 10.
Proof.
  intros Hn. unfold Format. exec.
  assert (Hcmd : mkfs_cmd source numSectors
                 = [kMkfsPath; "-O"; "android"; "-A";
                    "-s"; fmt_lu numSectors; source]).
  { unfold mkfs_cmd. replace (numSectors =? 0) with false by lia.
    reflexivity. }
  rewrite Hcmd.
  set (c := helper (ForkExecvp _)). set (r := host (history w) c).
  assert (Hlead : exists (d : Z) (rest : string),
             fmt_lu numSectors = String (digit_char d) rest /\ 0 < d < 10).
  { unfold fmt_lu, to_unsigned. rewrite Z.mod_small by lia.
    apply fmt_unsigned_leading; lia. }
  destruct (ret r <? 0); [|destruct (ret r =? 0)]; exec;
    exists (fmt_lu numSectors), r;
    (split; [read_since; reflexivity|]);
    (split; [apply fmt_lu_all_digits|]);
    (split; [apply fmt_lu_value; lia|exact Hlead]).
Qed.

Lemma Format_sector_count_round_trip_witness :
  let '(rc, w') := Format (tool_exits 0) "/dev/block/sda1" 2048 boot in
  exists (arg : string) (r : Reply),
    since boot w'
    = [(helper (ForkExecvp ["/system/bin/newfs_msdos"; "-O"; "android"; "-A";
                            "-s"; arg; "/dev/block/sda1"]), r)] /\
    all_digits arg = true /\
    value_from 10 0 arg = 2048.
Proof.
  pose proof (Format_sector_count_round_trip (tool_exits 0) "/dev/block/sda1"
                2048 boot) as H.
  destruct (Format (tool_exits 0) "/dev/block/sda1" 2048 boot) as [rc w'].
  destruct H as (arg & r & Hs & Hdigits & Hval & _); [split; reflexivity|].
  exists arg, r. split; [exact Hs|]. split; [exact Hdigits|exact Hval].
Defined.
